(** * openapi-core: security providers and validator detection

    A shallow embedding of [openapi_core/security/providers.py] and of the
    validator detection exercised by [tests/unit/test_shortcuts.py] and
    [tests/unit/validation/test_shortcuts.py].

    Python features and how they are rendered here:
    - [str] is [string]; the characters are the 7-bit ASCII ones, which is
      what an HTTP header field carries (RFC 7230 tokens), so that
      [str.lower] is the A-Z to a-z map;
    - a [Mapping] (the query, header, cookie and path parameters, and the
      security scheme read through [self.scheme[...]]) is a [gmap string
      string]; [k in m] is [m !! k ≠ None] and [m[k]] raises [KeyError]
      when the key is absent;
    - exceptions are values of [exn]; a call returns an [outcome];
    - the objects a provider holds references to ([self.scheme], the
      [parameters] argument) and the process-wide warnings log live in a
      [world] that every call threads through. *)

From Stdlib Require Import Strings.String Strings.Ascii Lists.List Bool.
From stdpp Require Import base strings gmap.

Local Open Scope string_scope.
Local Open Scope list_scope.

(** ** Python strings *)

Module PyStr.

(** [c.lower()] on one ASCII character. *)
Definition lower_ascii (c : ascii) : ascii :=
  let n := nat_of_ascii c in
  if (65 <=? n)%nat && (n <=? 90)%nat then ascii_of_nat (n + 32) else c.

(** [s.lower()]. *)
Fixpoint lower (s : string) : string :=
  match s with
  | EmptyString => EmptyString
  | String c r => String (lower_ascii c) (lower r)
  end.

(** Puts a character in front of the first piece of a split. *)
Definition cons_head (c : ascii) (pieces : list string) : list string :=
  match pieces with
  | [] => []
  | x :: rest => String c x :: rest
  end.

(** [s.split(sep, maxsplit)] for a one-character separator: at most
    [maxsplit] cuts, leftmost first; the remainder is the last piece. *)
Fixpoint split (sep : ascii) (maxsplit : nat) (s : string) : list string :=
  match s with
  | EmptyString => [EmptyString]
  | String c r =>
      if Ascii.eqb c sep then
        match maxsplit with
        | O => cons_head c (split sep O r)
        | S n => EmptyString :: split sep n r
        end
      else cons_head c (split sep maxsplit r)
  end.

(** [sep in s]. *)
Fixpoint contains (sep : ascii) (s : string) : bool :=
  match s with
  | EmptyString => false
  | String c r => Ascii.eqb c sep || contains sep r
  end.

(** The space character, the separator of [auth_header.split(" ", 1)]. *)
Definition space : ascii := " "%char.

End PyStr.

(** ** Exceptions, outcomes and the world *)

Inductive exn : Type :=
| SecurityError (msg : string)
| ValueError (msg : string)
| KeyError (key : string)
| AttributeError (name : string)
| NotImplementedError.

Inductive outcome (A : Type) : Type :=
| Return (a : A)
| Raise (e : exn).
Arguments Return {A} a.
Arguments Raise {A} e.

(** What a provider returns ([Any] in the source): a string or [None]. *)
Inductive value : Type :=
| VStr (s : string)
| VNone.

(** [openapi_core.validation.request.datatypes.RequestParameters]: the
    four mappings of a request. *)
Record RequestParameters : Type := mkRequestParameters {
  query : gmap string string;
  header : gmap string string;
  cookie : gmap string string;
  path : gmap string string
}.

(** A warning as [warnings.warn] records it: category and message. *)
Inductive warning : Type :=
| UserWarning (msg : string).

(** The objects a provider call can reach. *)
Record world : Type := mkWorld {
  w_scheme : gmap string string;
  w_parameters : RequestParameters;
  w_warnings : list warning
}.

(** Computations over the world that may raise. *)
Definition M (A : Type) : Type := world -> outcome A * world.

Definition ret {A} (a : A) : M A := fun w => (Return a, w).

Definition raise {A} (e : exn) : M A := fun w => (Raise e, w).

Definition bind {A B} (m : M A) (k : A -> M B) : M B :=
  fun w =>
    match m w with
    | (Return a, w') => k a w'
    | (Raise e, w') => (Raise e, w')
    end.

(** [try: m except <class>: h], where [handler] picks the class. *)
Definition try_except {A} (m : M A) (handler : exn -> option (M A)) : M A :=
  fun w =>
    match m w with
    | (Return a, w') => (Return a, w')
    | (Raise e, w') =>
        match handler e with
        | Some h => h w'
        | None => (Raise e, w')
        end
    end.

Declare Scope py_scope.
Delimit Scope py_scope with py.
Notation "x <- c1 ;; c2" := (bind c1 (fun x => c2))
  (at level 100, c1 at next level, right associativity) : py_scope.
Notation "c1 ;;; c2" := (bind c1 (fun _ => c2))
  (at level 100, right associativity) : py_scope.

(** ** Primitive operations of the source *)

(** [self.scheme[key]]. *)
Definition self_scheme_getitem (key : string) : M string :=
  fun w =>
    match w_scheme w !! key with
    | Some v => (Return v, w)
    | None => (Raise (KeyError key), w)
    end.

(** The attribute [location] of a [RequestParameters] object. *)
Definition location_attr (p : RequestParameters) (location : string)
  : option (gmap string string) :=
  if String.eqb location "query" then Some (query p)
  else if String.eqb location "header" then Some (header p)
  else if String.eqb location "cookie" then Some (cookie p)
  else if String.eqb location "path" then Some (path p)
  else None.

(** [getattr(parameters, location)]. *)
Definition getattr_parameters (location : string) : M (gmap string string) :=
  fun w =>
    match location_attr (w_parameters w) location with
    | Some src => (Return src, w)
    | None => (Raise (AttributeError location), w)
    end.

(** [parameters.header]. *)
Definition parameters_header : M (gmap string string) :=
  fun w => (Return (header (w_parameters w)), w).

(** [name in source]. *)
Definition mapping_contains (source : gmap string string) (name : string) : bool :=
  match source !! name with
  | Some _ => true
  | None => false
  end.

(** [source[name]]. *)
Definition mapping_getitem (source : gmap string string) (name : string) : M string :=
  match source !! name with
  | Some v => ret v
  | None => raise (KeyError name)
  end.

(** [a, b = pieces]. *)
Definition unpack2 (pieces : list string) : M (string * string) :=
  match pieces with
  | [a; b] => ret (a, b)
  | [] | [_] => raise (ValueError "not enough values to unpack")
  | _ => raise (ValueError "too many values to unpack")
  end.

(** [warnings.warn(msg)]: the warning is appended to the log. *)
Definition warnings_warn (msg : string) : M unit :=
  fun w =>
    (Return tt,
     {| w_scheme := w_scheme w;
        w_parameters := w_parameters w;
        w_warnings := w_warnings w ++ [UserWarning msg] |}).

(** ** The providers *)

Local Open Scope py_scope.

(** [BaseProvider.__call__]. *)
Definition BaseProvider_call : M value :=
  raise NotImplementedError.

(** [UnsupportedProvider.__call__]: warns and falls off the end. *)
Definition UnsupportedProvider_call : M value :=
  warnings_warn "Unsupported scheme type" ;;;
  ret VNone.

(** [ApiKeyProvider.__call__]. *)
Definition ApiKeyProvider_call : M value :=
  name <- self_scheme_getitem "name" ;;
  location <- self_scheme_getitem "in" ;;
  source <- getattr_parameters location ;;
  if negb (mapping_contains source name) then
    raise (SecurityError "Missing api key parameter.")
  else
    v <- mapping_getitem source name ;;
    ret (VStr v).

(** The [except ValueError] clause of [HttpProvider.__call__]. *)
Definition except_ValueError {A} (h : M A) (e : exn) : option (M A) :=
  match e with
  | ValueError _ => Some h
  | _ => None
  end.

(** [HttpProvider.__call__]. *)
Definition HttpProvider_call : M value :=
  hdr <- parameters_header ;;
  if negb (mapping_contains hdr "Authorization") then
    raise (SecurityError "Missing authorization header.")
  else
    auth_header <- mapping_getitem hdr "Authorization" ;;
    pieces <-
      try_except
        (unpack2 (PyStr.split PyStr.space 1 auth_header))
        (except_ValueError
           (raise (SecurityError "Could not parse authorization header."))) ;;
    let '(auth_type, encoded_credentials) := pieces in
    scheme <- self_scheme_getitem "scheme" ;;
    if negb (String.eqb (PyStr.lower auth_type) scheme) then
      raise (SecurityError ("Unknown authorization method " +:+ auth_type))
    else
      ret (VStr encoded_credentials).

(** A call of provider [P] holding [scheme], on [parameters], with the
    warnings log [ws]. *)
Definition call (P : M value) (scheme : gmap string string)
    (parameters : RequestParameters) (ws : list warning) : outcome value * world :=
  P {| w_scheme := scheme; w_parameters := parameters; w_warnings := ws |}.

(** The outcome alone. *)
Definition result (P : M value) (scheme : gmap string string)
    (parameters : RequestParameters) : outcome value :=
  fst (call P scheme parameters []).

(** The call raised [SecurityError]. *)
Definition is_SecurityError {A} (o : outcome A) : Prop :=
  exists msg, o = Raise (SecurityError msg).

(** The comparison of [HttpProvider.__call__]: the lowercased scheme token
    of the header against the declared scheme name. *)
Definition scheme_token_matches (auth_type declared : string) : Prop :=
  PyStr.lower auth_type = declared.

(** Equality of two strings ignoring letter case. *)
Definition eq_ignoring_case (a b : string) : Prop :=
  PyStr.lower a = PyStr.lower b.

(** A request carrying only headers. *)
Definition headers_only (h : gmap string string) : RequestParameters :=
  {| query := ∅; header := h; cookie := ∅; path := ∅ |}.

(** A request used in the small cases: one header, one query parameter. *)
Definition sample_request : RequestParameters :=
  {| query := {["token" := ""]};
     header := {["api_key" := "abc123"]};
     cookie := ∅;
     path := ∅ |}.

(** A request whose credential has spaces in it, with other parameters
    besides the [Authorization] header. *)
Definition busy_request : RequestParameters :=
  {| query := {["page" := "2"]};
     header := {["Authorization" := "Bearer x y z"; "Accept" := "text/plain"]};
     cookie := {["session" := "s3cr3t"]};
     path := ∅ |}.

(** The provider classes of the module, and the call each one answers. *)
Inductive provider : Type :=
| BaseProvider
| UnsupportedProvider
| ApiKeyProvider
| HttpProvider.

Definition provider_call (P : provider) : M value :=
  match P with
  | BaseProvider => BaseProvider_call
  | UnsupportedProvider => UnsupportedProvider_call
  | ApiKeyProvider => ApiKeyProvider_call
  | HttpProvider => HttpProvider_call
  end.

(** ** Validator detection and dispatch

    The shortcut functions ([validate_request], [unmarshal_webhook_request],
    ...) and the detection they perform are not among the sources; only
    their tests are.  They are rendered from section 4.6, section 7 and
    section 9 of the specification, with the exception classes the tests
    expect. *)

Module Detection.

(** Modelled from the spec: the versions a specification can declare
    (the detection code is missing; the tests use the fixtures
    [spec_v30] and [spec_v31]). *)
Inductive oas_version : Type :=
| OAS30
| OAS31.

(** Modelled from the spec: the [spec] argument of a shortcut, missing
    with the shortcuts: a specification whose version is declared
    ([Some v]) or is not detected ([None], the fixture [spec_invalid]
    and the empty mapping of the older tests), or an object that is no
    specification at all ([mock.sentinel.spec]). *)
Inductive spec_arg : Type :=
| SpecObject (version : option oas_version)
| NotASpec.

(** Modelled from the spec: a Python object passed as a message, by the
    capability interfaces (the protocols [Request], [WebhookRequest]
    and [Response], missing from the sources) it satisfies. *)
Record py_object : Type := mkObject {
  is_Request : bool;
  is_WebhookRequest : bool;
  is_Response : bool
}.

(** An object that satisfies none of the interfaces, as
    [mock.sentinel.request] does. *)
Definition satisfies_none (o : py_object) : Prop :=
  is_Request o = false /\ is_WebhookRequest o = false /\ is_Response o = false.

(** Modelled from the spec: the message kinds of section 9 (the tagged
    variants that replace the missing validator classes). *)
Inductive message_kind : Type :=
| APICallRequest
| WebhookRequest
| APICallResponse
| WebhookResponse.

(** Validation or unmarshalling. *)
Inductive mode : Type :=
| Validate
| Unmarshal.

(** Modelled from the spec: an orchestrator variant (section 4.5), the
    missing validator or unmarshaller class, named by what selects it. *)
Record orchestrator : Type := mkOrchestrator {
  o_version : oas_version;
  o_kind : message_kind;
  o_mode : mode
}.

(** Modelled from the spec: the lookup table of section 9, keyed by
    specification version and message kind, in place of the missing
    table of classes: "webhook requests are unsupported before version
    3.1". *)
Definition supported (v : oas_version) (k : message_kind) : bool :=
  match v, k with
  | OAS30, WebhookRequest => false
  | OAS30, WebhookResponse => false
  | _, _ => true
  end.

(** Modelled from the spec: the class the missing detection selects. *)
Definition get_class (m : mode) (v : oas_version) (k : message_kind)
  : option orchestrator :=
  if supported v k then Some (mkOrchestrator v k m) else None.

(** The request shortcuts: [*_apicall_request], [*_webhook_request] and
    the generic [*_request]. *)
Inductive request_shortcut : Type :=
| apicall_request
| webhook_request
| any_request.

(** The response shortcuts: [*_apicall_response], [*_webhook_response]
    and the generic [*_response]. *)
Inductive response_shortcut : Type :=
| apicall_response
| webhook_response
| any_response.

(** Modelled from the spec: the message kind a request shortcut (missing
    from the sources) takes its [request] argument for; [None] when the
    object lacks the interface the shortcut needs. *)
Definition request_kind (s : request_shortcut) (request : py_object)
  : option message_kind :=
  match s with
  | apicall_request =>
      if is_Request request then Some APICallRequest else None
  | webhook_request =>
      if is_WebhookRequest request then Some WebhookRequest else None
  | any_request =>
      if is_WebhookRequest request then Some WebhookRequest
      else if is_Request request then Some APICallRequest
      else None
  end.

(** Modelled from the spec: the same for the [request] argument of a
    response shortcut (missing from the sources). *)
Definition response_kind (s : response_shortcut) (request : py_object)
  : option message_kind :=
  match s with
  | apicall_response =>
      if is_Request request then Some APICallResponse else None
  | webhook_response =>
      if is_WebhookRequest request then Some WebhookResponse else None
  | any_response =>
      if is_WebhookRequest request then Some WebhookResponse
      else if is_Request request then Some APICallResponse
      else None
  end.

Section Shortcuts.

(** What an orchestrator returns, and the errors it raises. *)
Context {R E : Type}.

(** What a shortcut call ends in.  [TypeError] and [SpecError] are the
    classes the tests expect ([SpecError] is [ValidatorDetectError] in
    the older tests); [OrchestratorError] is whatever the selected
    orchestrator raises. *)
Inductive failure : Type :=
| TypeError
| SpecError
| OrchestratorError (e : E).

Inductive shortcut_outcome : Type :=
| Done (r : R)
| Failed (f : failure).

(** Modelled from the spec: the error kinds of section 7, as far as
    the shortcuts (missing from the sources) are concerned: a failure to
    match the specification or the message with a validator is a
    detection error, under either class. *)
Inductive error_kind : Type :=
| DetectionError
| ValidationFailure.

Definition kind_of (f : failure) : error_kind :=
  match f with
  | TypeError => DetectionError
  | SpecError => DetectionError
  | OrchestratorError _ => ValidationFailure
  end.

(** One recorded call of an orchestrator, as the mock classes of the
    tests keep them in [validate_calls] and [unmarshal_calls]. *)
Definition call_record : Type := orchestrator * py_object * option py_object.

(** The selected orchestrator at work: operation resolution and all
    that follows it. *)
Variable run : orchestrator -> py_object -> option py_object -> E + R.

(** Modelled from the spec: the detection of section 4.6 (missing from
    the sources) on a specification argument. *)
Definition detect (m : mode) (spec : spec_arg) (k : message_kind)
  : failure + orchestrator :=
  match spec with
  | NotASpec => inl TypeError
  | SpecObject None => inl SpecError
  | SpecObject (Some v) =>
      match get_class m v k with
      | Some o => inr o
      | None => inl SpecError
      end
  end.

(** The orchestrator is called and the call recorded. *)
Definition invoke (o : orchestrator) (request : py_object)
    (response : option py_object) (calls : list call_record)
  : shortcut_outcome * list call_record :=
  (match run o request response with
   | inl e => Failed (OrchestratorError e)
   | inr r => Done r
   end,
   calls ++ [(o, request, response)]).

(** Modelled from the spec: a request shortcut called without an
    explicit class (the function is missing from the sources): the
    message is checked, the validator detected, and only then the
    orchestrator called. *)
Definition shortcut_request (m : mode) (s : request_shortcut)
    (request : py_object) (spec : spec_arg) (calls : list call_record)
  : shortcut_outcome * list call_record :=
  match request_kind s request with
  | None => (Failed TypeError, calls)
  | Some k =>
      match detect m spec k with
      | inl f => (Failed f, calls)
      | inr o => invoke o request None calls
      end
  end.

(** Modelled from the spec: a response shortcut called without an
    explicit class (the function is missing from the sources). *)
Definition shortcut_response (m : mode) (s : response_shortcut)
    (request response : py_object) (spec : spec_arg)
    (calls : list call_record)
  : shortcut_outcome * list call_record :=
  match response_kind s request with
  | None => (Failed TypeError, calls)
  | Some k =>
      if negb (is_Response response) then
        (Failed TypeError, calls)
      else
        match detect m spec k with
        | inl f => (Failed f, calls)
        | inr o => invoke o request (Some response) calls
        end
  end.

End Shortcuts.

Arguments failure : clear implicits.
Arguments shortcut_outcome : clear implicits.

(** [mock.sentinel.request]: an object with none of the interfaces. *)
Definition sentinel : py_object :=
  {| is_Request := false; is_WebhookRequest := false; is_Response := false |}.

(** [mock.Mock(spec=WebhookRequest)]. *)
Definition mock_WebhookRequest : py_object :=
  {| is_Request := false; is_WebhookRequest := true; is_Response := false |}.

(** [mock.Mock(spec=Request)]. *)
Definition mock_Request : py_object :=
  {| is_Request := true; is_WebhookRequest := false; is_Response := false |}.

(** [mock.Mock(spec=Response)]. *)
Definition mock_Response : py_object :=
  {| is_Request := false; is_WebhookRequest := false; is_Response := true |}.

(** An orchestrator that accepts every message. *)
Definition run_accepting (o : orchestrator) (request : py_object)
    (response : option py_object) : unit + unit :=
  inr tt.

End Detection.

(** ** Further operations

    What the properties below the claims are stated with. *)

(** [sep.join(pieces)] for a one-character separator. *)
Fixpoint join (sep : ascii) (pieces : list string) : string :=
  match pieces with
  | [] => EmptyString
  | x :: rest =>
      match rest with
      | [] => x
      | _ :: _ => x +:+ String sep (join sep rest)
      end
  end.



(** ** The mock classes of the tests

    [MockClass] and its subclasses in [tests/unit/test_shortcuts.py] keep
    their call logs in class attributes.  An attribute read through an
    instance or a class is found in the first class of the method
    resolution order that has it in its own dictionary; [setUp] assigns
    into the dictionary of the class it is called on; [append] changes the
    list where it was found. *)

Module Mocks.

(** The four mock classes that derive from [MockClass]. *)
Inductive mock_base : Type :=
| MockReqValidator
| MockReqUnmarshaller
| MockRespValidator
| MockRespUnmarshaller.

(** The classes: [MockClass], its subclasses, and the classes the tests
    make with [type(name, (base, ...), {})], each told from the others by
    its name and its mock base. *)
Inductive cls : Type :=
| MockClass
| Base (b : mock_base)
| Made (name : string) (b : mock_base).

#[global] Instance mock_base_eq_dec : EqDecision mock_base.
Proof. solve_decision. Defined.

#[global] Instance cls_eq_dec : EqDecision cls.
Proof. solve_decision. Defined.

(** The classes searched for an attribute, in order.  The validator and
    unmarshaller classes a made class also inherits from come after
    [MockClass] and hold none of the three attributes. *)
Definition mro (c : cls) : list cls :=
  match c with
  | MockClass => [MockClass]
  | Base b => [Base b; MockClass]
  | Made name b => [Made name b; Base b; MockClass]
  end.

Section Store.

(** The objects [return_unmarshal] can hold. *)
Context {R : Type}.

(** The three attributes [setUp] assigns; a call is the tuple of its
    arguments. *)
Record attrs : Type := mkAttrs {
  unmarshal_calls : list (list Detection.py_object);
  validate_calls : list (list Detection.py_object);
  return_unmarshal : option R
}.

(** The dictionaries of the classes, as far as the three attributes go:
    [None] for a class that has not got them of its own. *)
Definition store : Type := cls -> option attrs.

(** The classes as their bodies leave them: only [MockClass] has the
    attributes. *)
Definition class_bodies : store :=
  fun c =>
    match c with
    | MockClass => Some (mkAttrs [] [] None)
    | _ => None
    end.

(** Assignment into the dictionary of [c]. *)
Definition set_attrs (c : cls) (a : attrs) (s : store) : store :=
  fun c' => if decide (c' = c) then Some a else s c'.

(** The class an attribute read from [c] is found in. *)
Definition owner (s : store) (c : cls) : option cls :=
  List.find (fun c' => match s c' with Some _ => true | None => false end) (mro c).

(** The attributes as read through [c] or an instance of [c]. *)
Definition class_attrs (s : store) (c : cls) : option attrs :=
  match owner s c with
  | Some o => s o
  | None => None
  end.

(** [MockClass.setUp], a class method: called on [c] it assigns to [c]. *)
Definition setUp (c : cls) (r : option R) (s : store) : store :=
  set_attrs c (mkAttrs [] [] r) s.

(** [self.validate_calls.append(entry)] for an instance of [c]; [None]
    stands for the [AttributeError] of a failed lookup. *)
Definition append_validate_call (c : cls) (entry : list Detection.py_object)
    (s : store) : option store :=
  match owner s c with
  | Some o =>
      match s o with
      | Some a =>
          Some (set_attrs o
                  (mkAttrs (unmarshal_calls a) (validate_calls a ++ [entry])
                     (return_unmarshal a)) s)
      | None => None
      end
  | None => None
  end.

(** [self.unmarshal_calls.append(entry)] for an instance of [c]. *)
Definition append_unmarshal_call (c : cls) (entry : list Detection.py_object)
    (s : store) : option store :=
  match owner s c with
  | Some o =>
      match s o with
      | Some a =>
          Some (set_attrs o
                  (mkAttrs (unmarshal_calls a ++ [entry]) (validate_calls a)
                     (return_unmarshal a)) s)
      | None => None
      end
  | None => None
  end.

(** [MockReqValidator.validate(self, req)], [self] an instance of [c]. *)
Definition MockReqValidator_validate (c : cls) (req : Detection.py_object)
    (s : store) : option store :=
  append_validate_call c [req] s.

(** [MockRespValidator.validate(self, req, resp)]. *)
Definition MockRespValidator_validate (c : cls) (req resp : Detection.py_object)
    (s : store) : option store :=
  append_validate_call c [req; resp] s.

(** [return self.return_unmarshal] after the append. *)
Definition return_after (c : cls) (s' : option store) : option (option R * store) :=
  match s' with
  | Some s1 =>
      match class_attrs s1 c with
      | Some a => Some (return_unmarshal a, s1)
      | None => None
      end
  | None => None
  end.

(** [MockReqUnmarshaller.unmarshal(self, req)]. *)
Definition MockReqUnmarshaller_unmarshal (c : cls) (req : Detection.py_object)
    (s : store) : option (option R * store) :=
  return_after c (append_unmarshal_call c [req] s).

(** [MockRespUnmarshaller.unmarshal(self, req, resp)]. *)
Definition MockRespUnmarshaller_unmarshal (c : cls)
    (req resp : Detection.py_object) (s : store) : option (option R * store) :=
  return_after c (append_unmarshal_call c [req; resp] s).

(** The fixture [setup], run before every test. *)
Definition fixture_setup (s : store) : store :=
  setUp MockClass None s.

(** [validate(req)] for each request of [reqs] in turn, on instances of
    [c]. *)
Fixpoint validate_each (c : cls) (reqs : list Detection.py_object) (s : store)
  : option store :=
  match reqs with
  | [] => Some s
  | req :: rest =>
      match MockReqValidator_validate c req s with
      | Some s1 => validate_each c rest s1
      | None => None
      end
  end.

End Store.

Arguments attrs : clear implicits.
Arguments store : clear implicits.

End Mocks.

(** ** Small cases *)

Example split_bearer :
  PyStr.split PyStr.space 1 "Bearer xyz" = ["Bearer"; "xyz"].
Proof. reflexivity. Qed.

Example split_two_spaces :
  PyStr.split PyStr.space 1 "Bearer x y z" = ["Bearer"; "x y z"].
Proof. reflexivity. Qed.

Example split_no_space :
  PyStr.split PyStr.space 1 "Bearer" = ["Bearer"].
Proof. reflexivity. Qed.

Example lower_bearer : PyStr.lower "BeaRer" = "bearer".
Proof. reflexivity. Qed.

Example http_bearer_ok :
  result HttpProvider_call {["scheme" := "bearer"]}
         (headers_only {["Authorization" := "Bearer xyz"]})
  = Return (VStr "xyz").
Proof. vm_compute. reflexivity. Qed.

(** ** Facts about [split], [contains] and [lower] *)

Section PyStrFacts.

Import PyStr.

Variable sep : ascii.

Lemma split_zero (s : string) : split sep 0 s = [s].
Proof.
  induction s as [|c r IH]; simpl; [reflexivity|].
  rewrite IH. destruct (Ascii.eqb c sep); reflexivity.
Qed.

Lemma split_no_sep (n : nat) (s : string) :
  contains sep s = false -> split sep n s = [s].
Proof.
  induction s as [|c r IH]; simpl; [reflexivity|].
  intros H. apply orb_false_iff in H as [Hc Hr].
  rewrite Hc, (IH Hr). reflexivity.
Qed.

Lemma split_first (n : nat) (tok cred : string) :
  contains sep tok = false ->
  split sep (S n) (tok +:+ String sep cred) = tok :: split sep n cred.
Proof.
  induction tok as [|c r IH]; simpl.
  - intros _. rewrite Ascii.eqb_refl. reflexivity.
  - intros H. apply orb_false_iff in H as [Hc Hr].
    rewrite Hc, (IH Hr). reflexivity.
Qed.

Lemma split_once (tok cred : string) :
  contains sep tok = false ->
  split sep 1 (tok +:+ String sep cred) = [tok; cred].
Proof.
  intros H. rewrite (split_first 0 tok cred H), split_zero. reflexivity.
Qed.

Lemma contains_decompose (s : string) :
  contains sep s = true ->
  exists tok cred, s = tok +:+ String sep cred /\ contains sep tok = false.
Proof.
  induction s as [|c r IH]; simpl; [discriminate|].
  destruct (Ascii.eqb c sep) eqn:Hc; simpl.
  - intros _. apply Ascii.eqb_eq in Hc. subst c.
    exists EmptyString, r. split; reflexivity.
  - intros Hr. destruct (IH Hr) as (tok & cred & -> & Htok).
    exists (String c tok), cred. split; [reflexivity|].
    simpl. rewrite Hc, Htok. reflexivity.
Qed.

Lemma contains_append (a b : string) :
  contains sep (a +:+ String sep b) = true.
Proof.
  induction a as [|c r IH]; simpl.
  - rewrite Ascii.eqb_refl. reflexivity.
  - rewrite IH. apply orb_true_r.
Qed.

(** The first separator is where it is: a string has one decomposition
    into a separator-free token, the separator and a remainder. *)
Lemma decompose_unique (tok cred tok' cred' : string) :
  contains sep tok = false -> contains sep tok' = false ->
  tok +:+ String sep cred = tok' +:+ String sep cred' ->
  tok = tok' /\ cred = cred'.
Proof.
  intros H H' E.
  assert (Hs : [tok; cred] = [tok'; cred']).
  { rewrite <- (split_once tok cred H), <- (split_once tok' cred' H'), E.
    reflexivity. }
  injection Hs as -> ->. split; reflexivity.
Qed.

End PyStrFacts.

Lemma lower_ascii_idempotent (c : ascii) :
  PyStr.lower_ascii (PyStr.lower_ascii c) = PyStr.lower_ascii c.
Proof.
  destruct c as [[] [] [] [] [] [] [] []]; reflexivity.
Qed.

Lemma lower_idempotent (s : string) :
  PyStr.lower (PyStr.lower s) = PyStr.lower s.
Proof.
  induction s as [|c r IH]; simpl; [reflexivity|].
  rewrite lower_ascii_idempotent, IH. reflexivity.
Qed.

(** ** What each provider call computes *)

Section ProviderFacts.

Variable w : world.

Lemma ApiKeyProvider_call_eq (name location : string) (source : gmap string string) :
  w_scheme w !! "name" = Some name ->
  w_scheme w !! "in" = Some location ->
  location_attr (w_parameters w) location = Some source ->
  ApiKeyProvider_call w =
    (match source !! name with
     | Some v => Return (VStr v)
     | None => Raise (SecurityError "Missing api key parameter.")
     end, w).
Proof.
  intros Hn Hl Hs.
  unfold ApiKeyProvider_call, bind, self_scheme_getitem, getattr_parameters.
  rewrite Hn, Hl, Hs.
  unfold mapping_contains, mapping_getitem.
  destruct (source !! name); reflexivity.
Qed.

Lemma ApiKeyProvider_call_no_name :
  w_scheme w !! "name" = None ->
  ApiKeyProvider_call w = (Raise (KeyError "name"), w).
Proof.
  intros Hn. unfold ApiKeyProvider_call, bind, self_scheme_getitem.
  rewrite Hn. reflexivity.
Qed.

Lemma ApiKeyProvider_call_no_in (name : string) :
  w_scheme w !! "name" = Some name ->
  w_scheme w !! "in" = None ->
  ApiKeyProvider_call w = (Raise (KeyError "in"), w).
Proof.
  intros Hn Hl. unfold ApiKeyProvider_call, bind, self_scheme_getitem.
  rewrite Hn, Hl. reflexivity.
Qed.

Lemma ApiKeyProvider_call_no_attr (name location : string) :
  w_scheme w !! "name" = Some name ->
  w_scheme w !! "in" = Some location ->
  location_attr (w_parameters w) location = None ->
  ApiKeyProvider_call w = (Raise (AttributeError location), w).
Proof.
  intros Hn Hl Hs.
  unfold ApiKeyProvider_call, bind, self_scheme_getitem, getattr_parameters.
  rewrite Hn, Hl, Hs. reflexivity.
Qed.

Lemma HttpProvider_call_missing :
  header (w_parameters w) !! "Authorization" = None ->
  HttpProvider_call w = (Raise (SecurityError "Missing authorization header."), w).
Proof.
  intros H.
  unfold HttpProvider_call, bind, parameters_header, mapping_contains.
  rewrite H. reflexivity.
Qed.

Lemma HttpProvider_call_unparsable (h : string) :
  header (w_parameters w) !! "Authorization" = Some h ->
  PyStr.contains PyStr.space h = false ->
  HttpProvider_call w = (Raise (SecurityError "Could not parse authorization header."), w).
Proof.
  intros H Hsp.
  unfold HttpProvider_call, bind, parameters_header, mapping_contains, mapping_getitem.
  rewrite H. simpl. unfold try_except.
  rewrite (split_no_sep PyStr.space 1 h Hsp). reflexivity.
Qed.

Lemma HttpProvider_call_split (tok cred : string) :
  header (w_parameters w) !! "Authorization" = Some (tok +:+ String PyStr.space cred) ->
  PyStr.contains PyStr.space tok = false ->
  HttpProvider_call w =
    (match w_scheme w !! "scheme" with
     | None => Raise (KeyError "scheme")
     | Some declared =>
         if String.eqb (PyStr.lower tok) declared then Return (VStr cred)
         else Raise (SecurityError ("Unknown authorization method " +:+ tok))
     end, w).
Proof.
  intros H Hsp.
  unfold HttpProvider_call, bind, parameters_header, mapping_contains, mapping_getitem.
  rewrite H. simpl. unfold try_except.
  rewrite (split_once PyStr.space tok cred Hsp). simpl.
  unfold self_scheme_getitem.
  destruct (w_scheme w !! "scheme") as [declared|]; [|reflexivity].
  destruct (String.eqb (PyStr.lower tok) declared); reflexivity.
Qed.

Lemma UnsupportedProvider_call_eq :
  UnsupportedProvider_call w =
    (Return VNone,
     {| w_scheme := w_scheme w;
        w_parameters := w_parameters w;
        w_warnings := w_warnings w ++ [UserWarning "Unsupported scheme type"] |}).
Proof. reflexivity. Qed.

End ProviderFacts.

(** The header either has no space or splits at its first one. *)
Lemma header_cases (h : string) :
  PyStr.contains PyStr.space h = false \/
  exists tok cred,
    h = tok +:+ String PyStr.space cred /\ PyStr.contains PyStr.space tok = false.
Proof.
  destruct (PyStr.contains PyStr.space h) eqn:E; [right|left; reflexivity].
  apply contains_decompose, E.
Qed.

(** Case analysis on the lookups a provider call performs. *)
Ltac case_lookups :=
  repeat (simpl; try reflexivity;
          match goal with
          | |- context [match ?m !! ?k with _ => _ end] => destruct (m !! k)
          | |- context [match location_attr ?p ?l with _ => _ end] =>
              destruct (location_attr p l)
          end).

(** [ApiKeyProvider.__call__] writes nothing at all. *)
Lemma ApiKeyProvider_call_world (w : world) :
  snd (ApiKeyProvider_call w) = w.
Proof.
  unfold ApiKeyProvider_call, bind, self_scheme_getitem, getattr_parameters,
    mapping_contains, mapping_getitem.
  case_lookups.
Qed.

(** [HttpProvider.__call__] writes nothing at all. *)
Lemma HttpProvider_call_world (w : world) :
  snd (HttpProvider_call w) = w.
Proof.
  destruct (header (w_parameters w) !! "Authorization") as [h|] eqn:H.
  - destruct (header_cases h) as [Hsp | (tok & cred & -> & Hsp)].
    + rewrite (HttpProvider_call_unparsable w h H Hsp). reflexivity.
    + rewrite (HttpProvider_call_split w tok cred H Hsp). reflexivity.
  - rewrite (HttpProvider_call_missing w H). reflexivity.
Qed.

(** Every provider call leaves the scheme and the parameters as they were. *)
Lemma provider_call_frame (P : provider) (w : world) :
  w_scheme (snd (provider_call P w)) = w_scheme w /\
  w_parameters (snd (provider_call P w)) = w_parameters w.
Proof.
  destruct P; simpl.
  - split; reflexivity.
  - split; reflexivity.
  - rewrite ApiKeyProvider_call_world. split; reflexivity.
  - rewrite HttpProvider_call_world. split; reflexivity.
Qed.

(** The outcome of a provider call is a function of the scheme and the
    parameters: the warnings log plays no part in it. *)
Lemma provider_call_outcome (P : provider) (w w' : world) :
  w_scheme w' = w_scheme w ->
  w_parameters w' = w_parameters w ->
  fst (provider_call P w') = fst (provider_call P w).
Proof.
  destruct w as [s p ws], w' as [s' p' ws']; simpl. intros -> ->.
  destruct P; simpl; [reflexivity|reflexivity| |].
  - unfold ApiKeyProvider_call, bind, self_scheme_getitem, getattr_parameters,
      mapping_contains, mapping_getitem.
    case_lookups.
  - destruct (header p !! "Authorization") as [h|] eqn:H.
    + destruct (header_cases h) as [Hsp | (tok & cred & -> & Hsp)].
      * rewrite (HttpProvider_call_unparsable (mkWorld s p ws) h H Hsp).
        rewrite (HttpProvider_call_unparsable (mkWorld s p ws') h H Hsp).
        reflexivity.
      * rewrite (HttpProvider_call_split (mkWorld s p ws) tok cred H Hsp).
        rewrite (HttpProvider_call_split (mkWorld s p ws') tok cred H Hsp).
        reflexivity.
    + rewrite (HttpProvider_call_missing (mkWorld s p ws) H).
      rewrite (HttpProvider_call_missing (mkWorld s p ws') H).
      reflexivity.
Qed.

(** ** The security providers *)

(** With a declared scheme name in lower case, the comparison of
    [HttpProvider.__call__] is equality ignoring letter case. *)
Lemma scheme_token_matches_lowercase (tok declared : string) :
  PyStr.lower declared = declared ->
  scheme_token_matches tok declared <-> eq_ignoring_case tok declared.
Proof.
  unfold scheme_token_matches, eq_ignoring_case. intros ->. reflexivity.
Qed.

(** What [HttpProvider.__call__] does, case by case: with a declared scheme
    name, the call raises [SecurityError] if and only if the
    [Authorization] header is missing, or it contains no space, or the
    lowercased token before its first space differs from the declared
    scheme name as it is written; otherwise the call returns what follows
    the first space of the header. *)
Lemma HttpProvider_call_cases
    (scheme : gmap string string) (declared : string)
    (parameters : RequestParameters) :
  scheme !! "scheme" = Some declared ->
  (is_SecurityError (result HttpProvider_call scheme parameters) <->
     header parameters !! "Authorization" = None
     \/ (exists h,
           header parameters !! "Authorization" = Some h /\
           PyStr.contains PyStr.space h = false)
     \/ (exists tok cred,
           header parameters !! "Authorization" = Some (tok +:+ " " +:+ cred) /\
           PyStr.contains PyStr.space tok = false /\
           ~ scheme_token_matches tok declared))
  /\ (~ is_SecurityError (result HttpProvider_call scheme parameters) ->
      exists tok cred,
        header parameters !! "Authorization" = Some (tok +:+ " " +:+ cred) /\
        PyStr.contains PyStr.space tok = false /\
        result HttpProvider_call scheme parameters = Return (VStr cred)).
Proof.
  intros Hd. unfold result, call.
  set (w := mkWorld scheme parameters []).
  destruct (header parameters !! "Authorization") as [h|] eqn:H.
  - destruct (header_cases h) as [Hsp | (tok & cred & -> & Hsp)].
    + rewrite (HttpProvider_call_unparsable w h H Hsp). simpl. split.
      * split; [|intros _; eexists; reflexivity].
        intros _. right. left. exists h. split; [reflexivity|exact Hsp].
      * intros Hn. exfalso. apply Hn. eexists. reflexivity.
    + rewrite (HttpProvider_call_split w tok cred H Hsp). simpl. rewrite Hd.
      destruct (String.eqb (PyStr.lower tok) declared) eqn:E; simpl.
      * apply String.eqb_eq in E. split.
        -- split; [intros [msg Hm]; discriminate Hm|].
           intros [Hc | [(h & Hh & Hc) | (tok' & cred' & Hh & Hsp' & Hc)]].
           ++ discriminate Hc.
           ++ injection Hh as <-.
              rewrite (contains_append PyStr.space tok cred) in Hc.
              discriminate Hc.
           ++ injection Hh as Hh.
              destruct (decompose_unique PyStr.space tok cred tok' cred' Hsp Hsp' Hh)
                as [<- _].
              contradiction.
        -- intros _. exists tok, cred. repeat split; assumption.
      * apply String.eqb_neq in E. split.
        -- split; [|intros _; eexists; reflexivity].
           intros _. right. right. exists tok, cred. repeat split; assumption.
        -- intros Hn. exfalso. apply Hn. eexists. reflexivity.
  - rewrite (HttpProvider_call_missing w H). simpl. split.
    + split; [|intros _; eexists; reflexivity]. intros _. left. reflexivity.
    + intros Hn. exfalso. apply Hn. eexists. reflexivity.
Qed.

(** For a declared scheme name in lower case the comparison ignores letter
    case, and the three ways to fail are the only ones. *)
Lemma HttpProvider_call_lowercase_declared
    (scheme : gmap string string) (declared : string)
    (parameters : RequestParameters) :
  scheme !! "scheme" = Some declared ->
  PyStr.lower declared = declared ->
  is_SecurityError (result HttpProvider_call scheme parameters) <->
    header parameters !! "Authorization" = None
    \/ (exists h,
          header parameters !! "Authorization" = Some h /\
          PyStr.contains PyStr.space h = false)
    \/ (exists tok cred,
          header parameters !! "Authorization" = Some (tok +:+ " " +:+ cred) /\
          PyStr.contains PyStr.space tok = false /\
          ~ eq_ignoring_case tok declared).
Proof.
  intros Hd Hlow.
  rewrite (proj1 (HttpProvider_call_cases scheme declared parameters Hd)).
  split; (intros [H | [H | (tok & cred & H & Hsp & Hm)]];
          [left; exact H | right; left; exact H |]);
    right; right; exists tok, cred; (split; [exact H|split; [exact Hsp|]]);
    intros Hc; apply Hm;
    apply (scheme_token_matches_lowercase tok declared Hlow); exact Hc.
Qed.

(** C1 (the code departs from it). With the declared scheme name [Basic],
    the header [Basic dXNlcjpwYXNz] is present, has a space after its
    scheme token, and the token is the declared name letter for letter;
    none of the three reasons to fail holds, and the call raises
    [SecurityError] all the same, since it compares the lowercased token
    with the declared name as it is written. *)
Theorem HttpProvider_rejects_declared_token :
  ({["scheme" := "Basic"]} : gmap string string) !! "scheme" = Some "Basic"
  /\ header (headers_only {["Authorization" := "Basic dXNlcjpwYXNz"]}) !! "Authorization"
     = Some ("Basic" +:+ " " +:+ "dXNlcjpwYXNz")
  /\ PyStr.contains PyStr.space "Basic" = false
  /\ result HttpProvider_call {["scheme" := "Basic"]}
       (headers_only {["Authorization" := "Basic dXNlcjpwYXNz"]})
     = Raise (SecurityError "Unknown authorization method Basic").
Proof. repeat split; vm_compute; reflexivity. Qed.

(** C2. For an API-key scheme with a declared name and location, and any
    request parameters, [ApiKeyProvider.__call__] raises [SecurityError]
    exactly when the name is absent from the mapping at that location, and
    otherwise returns the value stored there under the name. *)
Theorem ApiKeyProvider_call_spec
    (scheme : gmap string string) (name location : string)
    (parameters : RequestParameters) (source : gmap string string) :
  scheme !! "name" = Some name ->
  scheme !! "in" = Some location ->
  location_attr parameters location = Some source ->
  (is_SecurityError (result ApiKeyProvider_call scheme parameters) <->
     source !! name = None)
  /\ (forall v, source !! name = Some v ->
        result ApiKeyProvider_call scheme parameters = Return (VStr v)).
Proof.
  intros Hn Hl Hs. unfold result, call.
  rewrite (ApiKeyProvider_call_eq (mkWorld scheme parameters []) name location
             source Hn Hl Hs).
  simpl. destruct (source !! name) as [v|]; split.
  - split; [intros [msg Hm]; discriminate Hm | discriminate].
  - intros v' Hv. injection Hv as ->. reflexivity.
  - split; [reflexivity | intros _; eexists; reflexivity].
  - discriminate.
Qed.

Lemma ApiKeyProvider_call_spec_witness :
  (is_SecurityError
     (result ApiKeyProvider_call {["name" := "api_key"; "in" := "header"]}
        sample_request) <->
     header sample_request !! "api_key" = None)
  /\ (forall v, header sample_request !! "api_key" = Some v ->
        result ApiKeyProvider_call {["name" := "api_key"; "in" := "header"]}
          sample_request = Return (VStr v)).
Proof.
  apply (ApiKeyProvider_call_spec {["name" := "api_key"; "in" := "header"]}
           "api_key" "header" sample_request (header sample_request));
    vm_compute; reflexivity.
Defined.

(** C3 (the code departs from it). Scheme matching is meant to ignore
    letter case, yet only the header's token is lowercased: with the
    declared scheme name [Bearer] and the header [Bearer xyz], whose token
    equals the declared name even exactly, the call raises the
    scheme-mismatch [SecurityError]. *)
Theorem HttpProvider_declared_name_not_lowered :
  eq_ignoring_case "Bearer" "Bearer" /\
  result HttpProvider_call {["scheme" := "Bearer"]}
    (headers_only {["Authorization" := "Bearer xyz"]})
  = Raise (SecurityError "Unknown authorization method Bearer").
Proof. split; vm_compute; reflexivity. Qed.

(** Where the declared scheme name is in lower case, matching does ignore
    the letter case of the header's token. *)
Lemma HttpProvider_lowercase_declared
    (scheme : gmap string string) (declared tok cred : string)
    (parameters : RequestParameters) :
  scheme !! "scheme" = Some declared ->
  PyStr.lower declared = declared ->
  header parameters !! "Authorization" = Some (tok +:+ " " +:+ cred) ->
  PyStr.contains PyStr.space tok = false ->
  eq_ignoring_case tok declared ->
  result HttpProvider_call scheme parameters = Return (VStr cred).
Proof.
  intros Hd Hlow H Hsp Heq. unfold result, call.
  rewrite (HttpProvider_call_split (mkWorld scheme parameters []) tok cred H Hsp).
  simpl. rewrite Hd.
  apply (scheme_token_matches_lowercase tok declared Hlow) in Heq.
  unfold scheme_token_matches in Heq. rewrite Heq, String.eqb_refl. reflexivity.
Qed.

(** C4. With the HTTP-auth scheme declared as [bearer], the header
    [Bearer xyz] yields the credential [xyz], and the header [Basic xyz]
    raises the scheme-mismatch [SecurityError]. *)
Theorem HttpProvider_bearer_scenario :
  result HttpProvider_call {["scheme" := "bearer"]}
    (headers_only {["Authorization" := "Bearer xyz"]})
  = Return (VStr "xyz")
  /\ result HttpProvider_call {["scheme" := "bearer"]}
       (headers_only {["Authorization" := "Basic xyz"]})
     = Raise (SecurityError "Unknown authorization method Basic").
Proof. split; vm_compute; reflexivity. Qed.

(** C5. For any scheme, request parameters and warnings log,
    [UnsupportedProvider.__call__] appends one warning to the log, raises
    nothing and returns [None]. *)
Theorem UnsupportedProvider_call_spec
    (scheme : gmap string string) (parameters : RequestParameters)
    (ws : list warning) :
  call UnsupportedProvider_call scheme parameters ws =
    (Return VNone,
     {| w_scheme := scheme;
        w_parameters := parameters;
        w_warnings := ws ++ [UserWarning "Unsupported scheme type"] |}).
Proof. reflexivity. Qed.

(** C8. A call of any provider leaves the scheme and the parameters as they
    were; its outcome is the same in any world with the same scheme and
    parameters, and the same again when the call is repeated. *)
Theorem provider_calls_read_only (P : provider) (w : world) :
  w_scheme (snd (provider_call P w)) = w_scheme w
  /\ w_parameters (snd (provider_call P w)) = w_parameters w
  /\ (forall w' : world,
        w_scheme w' = w_scheme w ->
        w_parameters w' = w_parameters w ->
        fst (provider_call P w') = fst (provider_call P w))
  /\ fst (provider_call P (snd (provider_call P w))) = fst (provider_call P w).
Proof.
  destruct (provider_call_frame P w) as [Hs Hp].
  repeat split; try assumption.
  - intros w'. apply provider_call_outcome.
  - apply provider_call_outcome; assumption.
Qed.

Lemma provider_calls_read_only_witness :
  fst (provider_call UnsupportedProvider
         (mkWorld {["type" := "oauth2"]} sample_request
            [UserWarning "Unsupported scheme type"]))
  = fst (provider_call UnsupportedProvider
           (mkWorld {["type" := "oauth2"]} sample_request [])).
Proof.
  apply (proj1 (proj2 (proj2
           (provider_calls_read_only UnsupportedProvider
              (mkWorld {["type" := "oauth2"]} sample_request []))))).
  - reflexivity.
  - reflexivity.
Defined.

(** C9. [ApiKeyProvider.__call__] decides presence by the key: when the
    declared name is present at the declared location with the empty string
    as its value, the call returns the empty string. *)
Theorem ApiKeyProvider_empty_value
    (scheme : gmap string string) (name location : string)
    (parameters : RequestParameters) (source : gmap string string) :
  scheme !! "name" = Some name ->
  scheme !! "in" = Some location ->
  location_attr parameters location = Some source ->
  source !! name = Some "" ->
  result ApiKeyProvider_call scheme parameters = Return (VStr "").
Proof.
  intros Hn Hl Hs Hv. unfold result, call.
  rewrite (ApiKeyProvider_call_eq (mkWorld scheme parameters []) name location
             source Hn Hl Hs).
  rewrite Hv. reflexivity.
Qed.

Lemma ApiKeyProvider_empty_value_witness :
  result ApiKeyProvider_call {["name" := "token"; "in" := "query"]} sample_request
  = Return (VStr "").
Proof.
  apply (ApiKeyProvider_empty_value {["name" := "token"; "in" := "query"]}
           "token" "query" sample_request (query sample_request));
    vm_compute; reflexivity.
Defined.

(** C10. The outcome of [HttpProvider.__call__] is determined by the
    declared scheme name and the [Authorization] entry of the headers, and
    the outcome of [ApiKeyProvider.__call__] by the entry of the declared
    name at the declared location: calls that agree on these have equal
    outcomes.  The header is cut at its first space only, so a credential
    with spaces in it is returned whole. *)
Theorem providers_noninterference :
  (forall (scheme1 scheme2 : gmap string string) (p1 p2 : RequestParameters),
      scheme1 !! "scheme" = scheme2 !! "scheme" ->
      header p1 !! "Authorization" = header p2 !! "Authorization" ->
      result HttpProvider_call scheme1 p1 = result HttpProvider_call scheme2 p2)
  /\ (forall (scheme : gmap string string) (p1 p2 : RequestParameters),
        (forall (name location : string) (s1 s2 : gmap string string),
            scheme !! "name" = Some name ->
            scheme !! "in" = Some location ->
            location_attr p1 location = Some s1 ->
            location_attr p2 location = Some s2 ->
            s1 !! name = s2 !! name) ->
        result ApiKeyProvider_call scheme p1 = result ApiKeyProvider_call scheme p2)
  /\ (forall (scheme : gmap string string) (declared tok cred : string)
             (p : RequestParameters),
        scheme !! "scheme" = Some declared ->
        header p !! "Authorization" = Some (tok +:+ " " +:+ cred) ->
        PyStr.contains PyStr.space tok = false ->
        scheme_token_matches tok declared ->
        result HttpProvider_call scheme p = Return (VStr cred)).
Proof.
  split; [|split].
  - intros scheme1 scheme2 p1 p2 Hs Hh. unfold result, call.
    set (w1 := mkWorld scheme1 p1 []). set (w2 := mkWorld scheme2 p2 []).
    destruct (header p1 !! "Authorization") as [h|] eqn:H1; symmetry in Hh.
    + destruct (header_cases h) as [Hsp | (tok & cred & -> & Hsp)].
      * rewrite (HttpProvider_call_unparsable w1 h H1 Hsp),
          (HttpProvider_call_unparsable w2 h Hh Hsp).
        reflexivity.
      * rewrite (HttpProvider_call_split w1 tok cred H1 Hsp),
          (HttpProvider_call_split w2 tok cred Hh Hsp).
        simpl. rewrite Hs. reflexivity.
    + rewrite (HttpProvider_call_missing w1 H1), (HttpProvider_call_missing w2 Hh).
      reflexivity.
  - intros scheme p1 p2 Hagree. unfold result, call.
    set (w1 := mkWorld scheme p1 []). set (w2 := mkWorld scheme p2 []).
    destruct (scheme !! "name") as [name|] eqn:Hn.
    2: { rewrite (ApiKeyProvider_call_no_name w1 Hn),
           (ApiKeyProvider_call_no_name w2 Hn). reflexivity. }
    destruct (scheme !! "in") as [location|] eqn:Hl.
    2: { rewrite (ApiKeyProvider_call_no_in w1 name Hn Hl),
           (ApiKeyProvider_call_no_in w2 name Hn Hl). reflexivity. }
    destruct (location_attr p1 location) as [s1|] eqn:H1.
    + assert (H2 : exists s2, location_attr p2 location = Some s2).
      { revert H1. unfold location_attr.
        repeat (destruct (String.eqb location _); [intros _; eexists; reflexivity|]).
        discriminate. }
      destruct H2 as [s2 H2].
      rewrite (ApiKeyProvider_call_eq w1 name location s1 Hn Hl H1),
        (ApiKeyProvider_call_eq w2 name location s2 Hn Hl H2).
      simpl. rewrite (Hagree name location s1 s2 eq_refl eq_refl H1 H2). reflexivity.
    + assert (H2 : location_attr p2 location = None).
      { revert H1. unfold location_attr.
        repeat (destruct (String.eqb location _); [discriminate|]).
        reflexivity. }
      rewrite (ApiKeyProvider_call_no_attr w1 name location Hn Hl H1),
        (ApiKeyProvider_call_no_attr w2 name location Hn Hl H2).
      reflexivity.
  - intros scheme declared tok cred p Hd H Hsp Hm. unfold result, call.
    rewrite (HttpProvider_call_split (mkWorld scheme p []) tok cred H Hsp).
    simpl. rewrite Hd. unfold scheme_token_matches in Hm.
    rewrite Hm, String.eqb_refl. reflexivity.
Qed.

Lemma providers_noninterference_witness :
  result HttpProvider_call {["scheme" := "bearer"; "type" := "http"]} busy_request
  = result HttpProvider_call {["scheme" := "bearer"]}
      (headers_only {["Authorization" := "Bearer x y z"]})
  /\ result ApiKeyProvider_call {["name" := "api_key"; "in" := "cookie"]} busy_request
     = result ApiKeyProvider_call {["name" := "api_key"; "in" := "cookie"]}
         sample_request
  /\ result HttpProvider_call {["scheme" := "bearer"]} busy_request
     = Return (VStr "x y z").
Proof.
  destruct providers_noninterference as (Hhttp & Hkey & Hfull).
  split; [|split].
  - apply Hhttp; vm_compute; reflexivity.
  - apply Hkey. intros name location s1 s2 Hn Hl H1 H2.
    vm_compute in Hn. vm_compute in Hl.
    injection Hn as <-. injection Hl as <-.
    vm_compute in H1. vm_compute in H2.
    injection H1 as <-. injection H2 as <-.
    vm_compute. reflexivity.
  - apply (Hfull {["scheme" := "bearer"]} "bearer" "Bearer" "x y z" busy_request);
      vm_compute; reflexivity.
Defined.

(** ** Validator detection *)

Section DetectionFacts.

Import Detection.

Context {R E : Type}.
Variable run : orchestrator -> py_object -> option py_object -> E + R.

(** No version before 3.1 has a webhook orchestrator in the table. *)
Lemma get_class_oas30_webhook (m : mode) :
  get_class m OAS30 WebhookRequest = None /\
  get_class m OAS30 WebhookResponse = None.
Proof. split; reflexivity. Qed.

(** Where the table has an entry, the request shortcut calls the selected
    orchestrator once. *)
Lemma shortcut_request_invokes (m : mode) (s : request_shortcut)
    (request : py_object) (v : oas_version) (k : message_kind)
    (calls : list call_record) :
  request_kind s request = Some k ->
  supported v k = true ->
  snd (shortcut_request run m s request (SpecObject (Some v)) calls)
  = calls ++ [(mkOrchestrator v k m, request, None)].
Proof.
  intros Hk Hs. unfold shortcut_request, detect, get_class.
  rewrite Hk, Hs. reflexivity.
Qed.

(** C6. For every webhook request message and a specification declaring
    version 3.0, detection finds no orchestrator: the webhook and the
    generic request shortcuts, validating or unmarshalling, fail with a
    detection error, produce no result and call no orchestrator. *)
Theorem webhook_request_not_detected_on_oas30
    (m : mode) (request : py_object) (calls : list call_record) :
  is_WebhookRequest request = true ->
  detect (E := E) m (SpecObject (Some OAS30)) WebhookRequest = inl SpecError
  /\ shortcut_request run m webhook_request request (SpecObject (Some OAS30)) calls
     = (Failed SpecError, calls)
  /\ shortcut_request run m any_request request (SpecObject (Some OAS30)) calls
     = (Failed SpecError, calls)
  /\ kind_of (E := E) SpecError = DetectionError.
Proof.
  intros Hw. unfold shortcut_request, request_kind. rewrite Hw.
  repeat split; reflexivity.
Qed.

(** C7. For every object that satisfies none of the message interfaces,
    passed as the request of a request shortcut or as the request or the
    response of a response shortcut, with any specification argument, the
    call fails with a detection error and no orchestrator is called. *)
Theorem no_interface_fails_detection
    (m : mode) (o other : py_object) (spec : spec_arg)
    (calls : list call_record) :
  satisfies_none o ->
  (forall s : request_shortcut,
      shortcut_request run m s o spec calls = (Failed TypeError, calls))
  /\ (forall s : response_shortcut,
        shortcut_response run m s o other spec calls = (Failed TypeError, calls))
  /\ (forall s : response_shortcut,
        shortcut_response run m s other o spec calls = (Failed TypeError, calls))
  /\ kind_of (E := E) TypeError = DetectionError.
Proof.
  intros (Hq & Hw & Hr). repeat split.
  - intros s. unfold shortcut_request, request_kind.
    destruct s; rewrite ?Hw, ?Hq; reflexivity.
  - intros s. unfold shortcut_response, response_kind.
    destruct s; rewrite ?Hw, ?Hq; reflexivity.
  - intros s. unfold shortcut_response. rewrite Hr. simpl.
    destruct (response_kind s other); reflexivity.
Qed.

End DetectionFacts.

Lemma webhook_request_not_detected_on_oas30_witness :
  Detection.shortcut_request (Detection.run_accepting) Detection.Validate
    Detection.webhook_request Detection.mock_WebhookRequest
    (Detection.SpecObject (Some Detection.OAS30)) []
  = (Detection.Failed Detection.SpecError, []).
Proof.
  apply (webhook_request_not_detected_on_oas30 Detection.run_accepting
           Detection.Validate Detection.mock_WebhookRequest []).
  reflexivity.
Defined.

Lemma no_interface_fails_detection_witness :
  Detection.shortcut_request (Detection.run_accepting) Detection.Unmarshal
    Detection.any_request Detection.sentinel
    (Detection.SpecObject (Some Detection.OAS31)) []
  = (Detection.Failed Detection.TypeError, []).
Proof.
  apply (no_interface_fails_detection Detection.run_accepting Detection.Unmarshal
           Detection.sentinel Detection.sentinel
           (Detection.SpecObject (Some Detection.OAS31)) []).
  repeat split.
Defined.

(** ** Further properties of the providers *)

(** A split has a first piece. *)
Lemma split_nonempty (sep : ascii) (n : nat) (s : string) :
  PyStr.split sep n s <> [].
Proof.
  revert n. induction s as [|c r IH]; intros n; simpl; [discriminate|].
  destruct (Ascii.eqb c sep).
  - destruct n; [|discriminate].
    specialize (IH 0). destruct (PyStr.split sep 0 r); [contradiction|discriminate].
  - specialize (IH n). destruct (PyStr.split sep n r); [contradiction|discriminate].
Qed.

(** Joining the pieces of a split gives the string back. *)
Lemma join_split (sep : ascii) (n : nat) (s : string) :
  join sep (PyStr.split sep n s) = s.
Proof.
  revert n. induction s as [|c r IH]; intros n; simpl; [reflexivity|].
  destruct (Ascii.eqb c sep) eqn:Hc.
  - apply Ascii.eqb_eq in Hc. subst c. destruct n as [|n].
    + rewrite split_zero. reflexivity.
    + specialize (IH n). pose proof (split_nonempty sep n r) as Hne.
      destruct (PyStr.split sep n r) as [|x rest]; [contradiction|].
      change (join sep (EmptyString :: x :: rest))
        with (String sep (join sep (x :: rest))).
      rewrite IH. reflexivity.
  - specialize (IH n). pose proof (split_nonempty sep n r) as Hne.
    destruct (PyStr.split sep n r) as [|x rest]; [contradiction|].
    destruct rest; simpl in *; subst r; reflexivity.
Qed.

(** A split with [maxsplit] cuts has at most [maxsplit + 1] pieces. *)
Lemma split_length (sep : ascii) (n : nat) (s : string) :
  length (PyStr.split sep n s) <= S n.
Proof.
  revert n. induction s as [|c r IH]; intros n; simpl.
  - apply le_n_S, Nat.le_0_l.
  - assert (Hcons : forall l : list string,
               length (PyStr.cons_head c l) = length l).
    { intros [|x l]; reflexivity. }
    destruct (Ascii.eqb c sep).
    + destruct n as [|n].
      * rewrite Hcons. apply IH.
      * simpl. apply le_n_S, IH.
    + rewrite Hcons. apply IH.
Qed.

(** The three ways a call of [HttpProvider] can go, by the header. *)
Lemma HttpProvider_result_cases
    (scheme : gmap string string) (parameters : RequestParameters) :
  (header parameters !! "Authorization" = None /\
   result HttpProvider_call scheme parameters
   = Raise (SecurityError "Missing authorization header."))
  \/ (exists h,
        header parameters !! "Authorization" = Some h /\
        PyStr.contains PyStr.space h = false /\
        result HttpProvider_call scheme parameters
        = Raise (SecurityError "Could not parse authorization header."))
  \/ (exists tok cred,
        header parameters !! "Authorization" = Some (tok +:+ " " +:+ cred) /\
        PyStr.contains PyStr.space tok = false /\
        result HttpProvider_call scheme parameters
        = match scheme !! "scheme" with
          | None => Raise (KeyError "scheme")
          | Some declared =>
              if String.eqb (PyStr.lower tok) declared then Return (VStr cred)
              else Raise (SecurityError ("Unknown authorization method " +:+ tok))
          end).
Proof.
  unfold result, call. set (w := mkWorld scheme parameters []).
  destruct (header parameters !! "Authorization") as [h|] eqn:H.
  - destruct (header_cases h) as [Hsp | (tok & cred & -> & Hsp)].
    + right. left. exists h.
      rewrite (HttpProvider_call_unparsable w h H Hsp). auto.
    + right. right. exists tok, cred.
      rewrite (HttpProvider_call_split w tok cred H Hsp). auto.
  - left. rewrite (HttpProvider_call_missing w H). auto.
Qed.

(** A header that reads [<token> <credential>] has a space in it. *)
Lemma contains_header (tok cred : string) :
  PyStr.contains PyStr.space (tok +:+ " " +:+ cred) = true.
Proof. exact (contains_append PyStr.space tok cred). Qed.

(** A header has one reading: two decompositions at a first space agree. *)
Lemma header_reading_unique (tok cred tok' cred' : string) :
  PyStr.contains PyStr.space tok = false ->
  PyStr.contains PyStr.space tok' = false ->
  Some (tok +:+ " " +:+ cred) = Some (tok' +:+ " " +:+ cred') ->
  tok = tok' /\ cred = cred'.
Proof.
  intros H H' E. injection E as E.
  exact (decompose_unique PyStr.space tok cred tok' cred' H H' E).
Qed.

(** X1. [HttpProvider.__call__] returns a credential only from a header
    that reads [<token> <credential>] with a space-free token whose
    lowercase form is the declared scheme name; what it returns is that
    credential, never [None]. *)
Theorem HttpProvider_returns_only_matching
    (scheme : gmap string string) (parameters : RequestParameters) (v : value) :
  result HttpProvider_call scheme parameters = Return v ->
  exists tok cred declared,
    v = VStr cred /\
    header parameters !! "Authorization" = Some (tok +:+ " " +:+ cred) /\
    PyStr.contains PyStr.space tok = false /\
    scheme !! "scheme" = Some declared /\
    PyStr.lower tok = declared.
Proof.
  intros Hr.
  destruct (HttpProvider_result_cases scheme parameters)
    as [[_ E] | [(h & _ & _ & E) | (tok & cred & H & Hsp & E)]];
    rewrite E in Hr; try discriminate Hr.
  destruct (scheme !! "scheme") as [declared|]; [|discriminate Hr].
  destruct (String.eqb (PyStr.lower tok) declared) eqn:Heq; [|discriminate Hr].
  apply String.eqb_eq in Heq. injection Hr as <-.
  exists tok, cred, declared. auto.
Qed.

Lemma HttpProvider_returns_only_matching_witness :
  exists tok cred declared,
    VStr "x y z" = VStr cred /\
    header busy_request !! "Authorization" = Some (tok +:+ " " +:+ cred) /\
    PyStr.contains PyStr.space tok = false /\
    ({["scheme" := "bearer"]} : gmap string string) !! "scheme" = Some declared /\
    PyStr.lower tok = declared.
Proof.
  apply (HttpProvider_returns_only_matching {["scheme" := "bearer"]} busy_request).
  vm_compute. reflexivity.
Defined.

(** X2. The only exceptions [HttpProvider.__call__] lets out are
    [SecurityError] and the [KeyError] of a scheme without a ["scheme"]
    entry; the [ValueError] of the unpacking never escapes.  The
    [KeyError] is raised exactly when the scheme has no such entry and the
    header is there with a space in it: a missing or unparsable header is
    reported first. *)
Theorem HttpProvider_exceptions
    (scheme : gmap string string) (parameters : RequestParameters) :
  match result HttpProvider_call scheme parameters with
  | Return (VStr _) => True
  | Return VNone => False
  | Raise (SecurityError _) => True
  | Raise (KeyError k) => k = "scheme"
  | Raise _ => False
  end
  /\ (result HttpProvider_call scheme parameters = Raise (KeyError "scheme") <->
      scheme !! "scheme" = None /\
      exists h, header parameters !! "Authorization" = Some h /\
                PyStr.contains PyStr.space h = true).
Proof.
  destruct (HttpProvider_result_cases scheme parameters)
    as [[H E] | [(h & H & Hsp & E) | (tok & cred & H & Hsp & E)]]; rewrite E.
  - split; [exact I|]. split; [discriminate|].
    intros (_ & h & Hh & _). rewrite H in Hh. discriminate Hh.
  - split; [exact I|]. split; [discriminate|].
    intros (_ & h' & Hh & Hc). rewrite H in Hh. injection Hh as <-.
    rewrite Hsp in Hc. discriminate Hc.
  - destruct (scheme !! "scheme") as [declared|].
    + destruct (String.eqb (PyStr.lower tok) declared);
        (split; [exact I|]); (split; [discriminate|]); intros [Hn _]; discriminate Hn.
    + split; [reflexivity|]. split; [|reflexivity].
      intros _. split; [reflexivity|].
      eexists. split; [exact H|]. apply contains_header.
Qed.

(** X3. The message of the [SecurityError] tells the cause: the header is
    missing, or it has no space, or its token, quoted in the message as it
    was sent, is not the declared scheme name once lowercased. *)
Theorem HttpProvider_error_messages
    (scheme : gmap string string) (parameters : RequestParameters) :
  (result HttpProvider_call scheme parameters
   = Raise (SecurityError "Missing authorization header.") <->
   header parameters !! "Authorization" = None)
  /\ (result HttpProvider_call scheme parameters
      = Raise (SecurityError "Could not parse authorization header.") <->
      exists h, header parameters !! "Authorization" = Some h /\
                PyStr.contains PyStr.space h = false)
  /\ (forall tok : string,
        result HttpProvider_call scheme parameters
        = Raise (SecurityError ("Unknown authorization method " +:+ tok)) <->
        exists cred declared,
          header parameters !! "Authorization" = Some (tok +:+ " " +:+ cred) /\
          PyStr.contains PyStr.space tok = false /\
          scheme !! "scheme" = Some declared /\
          PyStr.lower tok <> declared).
Proof.
  destruct (HttpProvider_result_cases scheme parameters)
    as [[H E] | [(h & H & Hsp & E) | (tok & cred & H & Hsp & E)]]; rewrite E.
  - split; [tauto|]. split.
    + split; [discriminate|]. intros (h & Hh & _). rewrite H in Hh. discriminate Hh.
    + intros tok. split; [discriminate|].
      intros (cred & d & Hh & _). rewrite H in Hh. discriminate Hh.
  - split; [|split].
    + split; [discriminate|]. intros Hn. rewrite H in Hn. discriminate Hn.
    + split; [|reflexivity]. intros _. exists h. auto.
    + intros tok. split; [discriminate|].
      intros (cred & d & Hh & Hs & _). rewrite H in Hh. injection Hh as ->.
      rewrite (contains_header tok cred) in Hsp. discriminate Hsp.
  - assert (Hno : forall h', Some (tok +:+ " " +:+ cred) = Some h' ->
                             PyStr.contains PyStr.space h' = false -> False).
    { intros h' Hh Hc. injection Hh as <-.
      rewrite (contains_header tok cred) in Hc. discriminate Hc. }
    rewrite H.
    destruct (scheme !! "scheme") as [declared|] eqn:Hd.
    + destruct (String.eqb (PyStr.lower tok) declared) eqn:Heq.
      * apply String.eqb_eq in Heq. split; [|split].
        -- split; discriminate.
        -- split; [discriminate|]. intros (h' & Hh & Hc). destruct (Hno h' Hh Hc).
        -- intros tok'. split; [discriminate|].
           intros (cred' & d & Hh & Hs & Hd' & Hne).
           destruct (header_reading_unique tok cred tok' cred' Hsp Hs Hh) as [<- _].
           injection Hd' as <-. contradiction.
      * apply String.eqb_neq in Heq. split; [|split].
        -- split; discriminate.
        -- split; [discriminate|]. intros (h' & Hh & Hc). destruct (Hno h' Hh Hc).
        -- intros tok'. split.
           ++ intros Hm. injection Hm as Hm.
              change (tok = tok') in Hm.
              subst tok'. exists cred, declared. auto.
           ++ intros (cred' & d & Hh & Hs & _).
              destruct (header_reading_unique tok cred tok' cred' Hsp Hs Hh) as [<- _].
              reflexivity.
    + split; [|split].
      * split; discriminate.
      * split; [discriminate|]. intros (h' & Hh & Hc). destruct (Hno h' Hh Hc).
      * intros tok'. split; [discriminate|].
        intros (cred' & d & _ & _ & Hd' & _). discriminate Hd'.
Qed.

(** X4. The scheme token of the header is compared without regard to its
    letter case: two requests whose headers carry the same credential
    after tokens that are equal ignoring case get the same credential back
    or are both refused with [SecurityError]. *)
Theorem HttpProvider_token_case_insensitive
    (scheme : gmap string string) (p1 p2 : RequestParameters)
    (tok1 tok2 cred : string) :
  eq_ignoring_case tok1 tok2 ->
  PyStr.contains PyStr.space tok1 = false ->
  PyStr.contains PyStr.space tok2 = false ->
  header p1 !! "Authorization" = Some (tok1 +:+ " " +:+ cred) ->
  header p2 !! "Authorization" = Some (tok2 +:+ " " +:+ cred) ->
  (forall v : value,
      result HttpProvider_call scheme p1 = Return v <->
      result HttpProvider_call scheme p2 = Return v)
  /\ (is_SecurityError (result HttpProvider_call scheme p1) <->
      is_SecurityError (result HttpProvider_call scheme p2)).
Proof.
  unfold eq_ignoring_case. intros Heq Hs1 Hs2 H1 H2. unfold result, call.
  rewrite (HttpProvider_call_split (mkWorld scheme p1 []) tok1 cred H1 Hs1).
  rewrite (HttpProvider_call_split (mkWorld scheme p2 []) tok2 cred H2 Hs2).
  simpl. rewrite Heq.
  destruct (scheme !! "scheme") as [declared|].
  - destruct (String.eqb (PyStr.lower tok2) declared).
    + split; [intros v|]; reflexivity.
    + split; [intros v; split; discriminate|].
      split; intros _; eexists; reflexivity.
  - split; [intros v|]; reflexivity.
Qed.

Lemma HttpProvider_token_case_insensitive_witness :
  (forall v : value,
      result HttpProvider_call {["scheme" := "bearer"]}
        (headers_only {["Authorization" := "BEARER xyz"]}) = Return v <->
      result HttpProvider_call {["scheme" := "bearer"]}
        (headers_only {["Authorization" := "Bearer xyz"]}) = Return v)
  /\ (is_SecurityError
        (result HttpProvider_call {["scheme" := "bearer"]}
           (headers_only {["Authorization" := "BEARER xyz"]})) <->
      is_SecurityError
        (result HttpProvider_call {["scheme" := "bearer"]}
           (headers_only {["Authorization" := "Bearer xyz"]}))).
Proof.
  apply (HttpProvider_token_case_insensitive {["scheme" := "bearer"]}
           (headers_only {["Authorization" := "BEARER xyz"]})
           (headers_only {["Authorization" := "Bearer xyz"]})
           "BEARER" "Bearer" "xyz");
    vm_compute; reflexivity.
Defined.

(** X5. A header that ends right after the space is not refused: with a
    matching token, [HttpProvider.__call__] returns the empty string as the
    credential. *)
Theorem HttpProvider_empty_credential
    (scheme : gmap string string) (parameters : RequestParameters)
    (tok : string) :
  scheme !! "scheme" = Some (PyStr.lower tok) ->
  PyStr.contains PyStr.space tok = false ->
  header parameters !! "Authorization" = Some (tok +:+ " ") ->
  result HttpProvider_call scheme parameters = Return (VStr "").
Proof.
  intros Hd Hsp H. unfold result, call.
  rewrite (HttpProvider_call_split (mkWorld scheme parameters []) tok "" H Hsp).
  simpl. rewrite Hd, String.eqb_refl. reflexivity.
Qed.

Lemma HttpProvider_empty_credential_witness :
  result HttpProvider_call {["scheme" := "bearer"]}
    (headers_only {["Authorization" := "Bearer "]})
  = Return (VStr "").
Proof.
  apply (HttpProvider_empty_credential {["scheme" := "bearer"]}
           (headers_only {["Authorization" := "Bearer "]}) "Bearer");
    vm_compute; reflexivity.
Defined.

(** The ways a call of [ApiKeyProvider] can go, by the scheme and the
    mapping at the declared location. *)
Lemma ApiKeyProvider_result_cases
    (scheme : gmap string string) (parameters : RequestParameters) :
  (scheme !! "name" = None /\
   result ApiKeyProvider_call scheme parameters = Raise (KeyError "name"))
  \/ (exists name,
        scheme !! "name" = Some name /\ scheme !! "in" = None /\
        result ApiKeyProvider_call scheme parameters = Raise (KeyError "in"))
  \/ (exists name location,
        scheme !! "name" = Some name /\ scheme !! "in" = Some location /\
        location_attr parameters location = None /\
        result ApiKeyProvider_call scheme parameters
        = Raise (AttributeError location))
  \/ (exists name location source,
        scheme !! "name" = Some name /\ scheme !! "in" = Some location /\
        location_attr parameters location = Some source /\
        result ApiKeyProvider_call scheme parameters
        = match source !! name with
          | Some v => Return (VStr v)
          | None => Raise (SecurityError "Missing api key parameter.")
          end).
Proof.
  unfold result, call. set (w := mkWorld scheme parameters []).
  destruct (scheme !! "name") as [name|] eqn:Hn.
  2: { left. rewrite (ApiKeyProvider_call_no_name w Hn). auto. }
  destruct (scheme !! "in") as [location|] eqn:Hl.
  2: { right. left. exists name.
       rewrite (ApiKeyProvider_call_no_in w name Hn Hl). auto. }
  destruct (location_attr parameters location) as [source|] eqn:Hs.
  - right. right. right. exists name, location, source.
    rewrite (ApiKeyProvider_call_eq w name location source Hn Hl Hs). auto.
  - right. right. left. exists name, location.
    rewrite (ApiKeyProvider_call_no_attr w name location Hn Hl Hs). auto.
Qed.

(** X6. [ApiKeyProvider.__call__] returns only what the request holds: a
    returned credential is the value stored under the declared name in the
    mapping at the declared location, and it is never [None]. *)
Theorem ApiKeyProvider_returns_only_stored
    (scheme : gmap string string) (parameters : RequestParameters) (v : value) :
  result ApiKeyProvider_call scheme parameters = Return v ->
  exists name location source stored,
    scheme !! "name" = Some name /\
    scheme !! "in" = Some location /\
    location_attr parameters location = Some source /\
    source !! name = Some stored /\
    v = VStr stored.
Proof.
  intros Hr.
  destruct (ApiKeyProvider_result_cases scheme parameters)
    as [[_ E] | [(n & _ & _ & E) | [(n & l & _ & _ & _ & E)
        | (n & l & src & Hn & Hl & Hs & E)]]];
    rewrite E in Hr; try discriminate Hr.
  destruct (src !! n) as [stored|] eqn:Hv; [|discriminate Hr].
  injection Hr as <-. exists n, l, src, stored. auto.
Qed.

Lemma ApiKeyProvider_returns_only_stored_witness :
  exists name location source stored,
    ({["name" := "api_key"; "in" := "header"]} : gmap string string) !! "name"
      = Some name /\
    ({["name" := "api_key"; "in" := "header"]} : gmap string string) !! "in"
      = Some location /\
    location_attr sample_request location = Some source /\
    source !! name = Some stored /\
    VStr "abc123" = VStr stored.
Proof.
  apply (ApiKeyProvider_returns_only_stored
           {["name" := "api_key"; "in" := "header"]} sample_request).
  vm_compute. reflexivity.
Defined.

(** X7. A [KeyError] out of [ApiKeyProvider.__call__] is about the scheme,
    never about the request: the lookup [source[name]] is guarded by the
    membership test, so the only keys reported are ["name"], when the
    scheme has no such entry, and ["in"], when it has a name and no
    location. *)
Theorem ApiKeyProvider_KeyError_from_scheme
    (scheme : gmap string string) (parameters : RequestParameters) :
  (result ApiKeyProvider_call scheme parameters = Raise (KeyError "name") <->
   scheme !! "name" = None)
  /\ (result ApiKeyProvider_call scheme parameters = Raise (KeyError "in") <->
      scheme !! "name" <> None /\ scheme !! "in" = None)
  /\ (forall k : string,
        result ApiKeyProvider_call scheme parameters = Raise (KeyError k) ->
        k = "name" \/ k = "in").
Proof.
  destruct (ApiKeyProvider_result_cases scheme parameters)
    as [[Hn E] | [(n & Hn & Hl & E) | [(n & l & Hn & Hl & Hs & E)
        | (n & l & src & Hn & Hl & Hs & E)]]];
    rewrite E, Hn; try rewrite Hl.
  - split; [tauto|]. split.
    + split; [discriminate|]. intros [Hc _]. contradiction.
    + intros k Hk. injection Hk as <-. left. reflexivity.
  - split; [split; discriminate|]. split.
    + split; [|reflexivity]. intros _. split; [discriminate|reflexivity].
    + intros k Hk. injection Hk as <-. right. reflexivity.
  - split; [split; discriminate|]. split.
    + split; [discriminate|]. intros [_ Hc]. discriminate Hc.
    + intros k Hk. discriminate Hk.
  - destruct (src !! n);
      (split; [split; discriminate|]);
      (split; [split; [discriminate|intros [_ Hc]; discriminate Hc]|]);
      intros k Hk; discriminate Hk.
Qed.

Lemma ApiKeyProvider_KeyError_from_scheme_witness :
  "name" = "name" \/ "name" = "in".
Proof.
  apply (proj2 (proj2 (ApiKeyProvider_KeyError_from_scheme ∅ sample_request))).
  vm_compute. reflexivity.
Defined.

(** X8. [auth_header.split(" ", 1)] loses nothing and yields one piece or
    two: joined by a space the pieces are the header again; a header without
    a space stays whole, and otherwise the pieces are the space-free token
    and the rest.  So the unpacking into two names can only fail for want
    of a second value, never for a third. *)
Theorem split_once_pieces (h : string) :
  join PyStr.space (PyStr.split PyStr.space 1 h) = h
  /\ ((PyStr.contains PyStr.space h = false /\
       PyStr.split PyStr.space 1 h = [h])
      \/ (exists tok cred,
            PyStr.contains PyStr.space tok = false /\
            h = tok +:+ " " +:+ cred /\
            PyStr.split PyStr.space 1 h = [tok; cred]))
  /\ (forall w : world,
        fst (unpack2 (PyStr.split PyStr.space 1 h) w)
        <> Raise (ValueError "too many values to unpack")).
Proof.
  split; [apply join_split|].
  destruct (header_cases h) as [Hsp | (tok & cred & -> & Hsp)].
  - rewrite (split_no_sep PyStr.space 1 h Hsp). split.
    + left. auto.
    + intros w. simpl. discriminate.
  - rewrite (split_once PyStr.space tok cred Hsp). split.
    + right. exists tok, cred. auto.
    + intros w. simpl. discriminate.
Qed.




(** ** The mock classes of the tests *)

Section MockFacts.

Import Mocks.

Context {R : Type}.
Implicit Types (s : store R) (c o : cls) (a : attrs R).

(** A lookup that succeeds ends in a class that has the attributes. *)
Lemma owner_has s c o :
  owner s c = Some o -> exists a, s o = Some a.
Proof.
  unfold owner. intros H. apply find_some in H as [_ H].
  destruct (s o) as [a|]; [exists a; reflexivity|discriminate H].
Qed.

(** Assigning to a class that has the attributes already moves no
    lookup. *)
Lemma owner_set_attrs s o a a' c :
  s o = Some a -> owner (set_attrs o a' s) c = owner s c.
Proof.
  intros Ho.
  assert (Hsame : forall c',
             match set_attrs o a' s c' with Some _ => true | None => false end
             = match s c' with Some _ => true | None => false end).
  { intros c'. unfold set_attrs.
    destruct (decide (c' = o)) as [->|]; [rewrite Ho|]; reflexivity. }
  unfold owner. destruct c; simpl; rewrite !Hsame; reflexivity.
Qed.

Lemma set_attrs_same s o a : set_attrs o a s o = Some a.
Proof. unfold set_attrs. destruct (decide (o = o)); [reflexivity|contradiction]. Qed.

Lemma set_attrs_other s o a c : c <> o -> set_attrs o a s c = s c.
Proof. intros H. unfold set_attrs. destruct (decide (c = o)); [contradiction|reflexivity]. Qed.

(** A class that has the attributes is where its own lookups end. *)
Lemma owner_own s c a : s c = Some a -> owner s c = Some c.
Proof.
  intros H. unfold owner. destruct c; simpl; rewrite H; reflexivity.
Qed.

(** X10. The call logs are shared through inheritance: when attribute
    lookup from two classes ends in the same class, a [validate] call on
    an instance of the one is in the log read through the other, after
    the calls that were there, and the other two attributes are as they
    were. *)
Theorem mock_validate_calls_shared s c1 c2 o a (req : Detection.py_object) :
  owner s c1 = Some o ->
  owner s c2 = Some o ->
  s o = Some a ->
  exists s',
    MockReqValidator_validate c1 req s = Some s' /\
    class_attrs s' c2
    = Some (mkAttrs (unmarshal_calls a) (validate_calls a ++ [[req]])
              (return_unmarshal a)).
Proof.
  intros H1 H2 Ho. unfold MockReqValidator_validate, append_validate_call.
  rewrite H1, Ho. eexists. split; [reflexivity|].
  unfold class_attrs. rewrite (owner_set_attrs s o a _ c2 Ho), H2.
  apply set_attrs_same.
Qed.

(** X11. [setUp] called on a class of its own gives that class its own
    logs: an [unmarshal] call on an instance then returns the object
    [setUp] was given, is the one call in the log of the class, and leaves
    the attributes of [MockClass] alone; and the fixture, which calls
    [MockClass.setUp()], no longer reaches the class. *)
Theorem mock_setUp_on_subclass s c (r : option R) (req : Detection.py_object) :
  c <> MockClass ->
  exists s2,
    MockReqUnmarshaller_unmarshal c req (setUp c r s) = Some (r, s2) /\
    class_attrs s2 c = Some (mkAttrs [[req]] [] r) /\
    s2 MockClass = s MockClass /\
    class_attrs (fixture_setup s2) c = class_attrs s2 c.
Proof.
  intros Hc. unfold fixture_setup, setUp.
  set (a0 := mkAttrs (R := R) [] [] r).
  set (a1 := mkAttrs (R := R) [[req]] [] r).
  set (s1 := set_attrs c a0 s).
  assert (H0 : s1 c = Some a0) by apply set_attrs_same.
  pose proof (owner_own s1 c a0 H0) as Hown.
  set (s2 := set_attrs c a1 s1).
  assert (H2 : s2 c = Some a1) by apply set_attrs_same.
  assert (Hattrs : class_attrs s2 c = Some a1).
  { unfold class_attrs. rewrite (owner_own s2 c a1 H2). exact H2. }
  exists s2. split; [|split; [exact Hattrs|split]].
  - unfold MockReqUnmarshaller_unmarshal, append_unmarshal_call.
    rewrite Hown, H0. simpl. fold a1. fold s2. unfold return_after.
    rewrite Hattrs. reflexivity.
  - unfold s2, s1.
    rewrite !set_attrs_other by (intros E; apply Hc; symmetry; exact E).
    reflexivity.
  - set (s3 := set_attrs MockClass (mkAttrs [] [] None) s2).
    assert (H3 : s3 c = Some a1).
    { unfold s3. rewrite set_attrs_other by exact Hc. exact H2. }
    unfold class_attrs.
    rewrite (owner_own s3 c a1 H3), (owner_own s2 c a1 H2), H3, H2.
    reflexivity.
Qed.

(** X12. The log is a faithful record: [validate] called for a list of
    requests on instances of a class adds one entry for each request, in
    the order of the calls, to the log the class reads, and changes no other
    class. *)
Theorem mock_validate_log s c o a (reqs : list Detection.py_object) :
  owner s c = Some o ->
  s o = Some a ->
  exists s',
    validate_each c reqs s = Some s' /\
    class_attrs s' c
    = Some (mkAttrs (unmarshal_calls a)
              (validate_calls a ++ map (fun req => [req]) reqs)
              (return_unmarshal a)) /\
    (forall c', c' <> o -> s' c' = s c').
Proof.
  revert s a. induction reqs as [|req rest IH]; intros s a Hown Ho.
  - exists s. simpl. rewrite app_nil_r. split; [reflexivity|]. split.
    + unfold class_attrs. rewrite Hown, Ho. destruct a; reflexivity.
    + reflexivity.
  - set (a1 := mkAttrs (unmarshal_calls a) (validate_calls a ++ [[req]])
                 (return_unmarshal a)).
    destruct (IH (set_attrs o a1 s) a1) as (s' & Hrun & Hattrs & Hrest).
    + rewrite (owner_set_attrs s o a a1 c Ho). exact Hown.
    + apply set_attrs_same.
    + exists s'. split; [|split].
      * simpl. unfold MockReqValidator_validate, append_validate_call.
        rewrite Hown, Ho. fold a1. exact Hrun.
      * rewrite Hattrs. simpl. rewrite <- app_assoc. reflexivity.
      * intros c' Hc'. rewrite (Hrest c' Hc'). apply set_attrs_other, Hc'.
Qed.

End MockFacts.

Lemma mock_validate_calls_shared_witness :
  exists s' : Mocks.store unit,
    Mocks.MockReqValidator_validate
      (Mocks.Made "TestAPICallReq" Mocks.MockReqValidator)
      Detection.mock_Request (Mocks.fixture_setup Mocks.class_bodies) = Some s' /\
    Mocks.class_attrs s' (Mocks.Made "TestWebhookReq" Mocks.MockReqValidator)
    = Some (Mocks.mkAttrs [] ([] ++ [[Detection.mock_Request]]) None).
Proof.
  apply (mock_validate_calls_shared (Mocks.fixture_setup Mocks.class_bodies)
           (Mocks.Made "TestAPICallReq" Mocks.MockReqValidator)
           (Mocks.Made "TestWebhookReq" Mocks.MockReqValidator)
           Mocks.MockClass (Mocks.mkAttrs [] [] None) Detection.mock_Request);
    vm_compute; reflexivity.
Defined.

Lemma mock_setUp_on_subclass_witness :
  exists s2 : Mocks.store string,
    Mocks.MockReqUnmarshaller_unmarshal
      (Mocks.Made "TestAPICallReq" Mocks.MockReqUnmarshaller)
      Detection.mock_Request
      (Mocks.setUp (Mocks.Made "TestAPICallReq" Mocks.MockReqUnmarshaller)
         (Some "unmarshal") (Mocks.fixture_setup Mocks.class_bodies))
    = Some (Some "unmarshal", s2) /\
    Mocks.class_attrs s2 (Mocks.Made "TestAPICallReq" Mocks.MockReqUnmarshaller)
    = Some (Mocks.mkAttrs [[Detection.mock_Request]] [] (Some "unmarshal")) /\
    s2 Mocks.MockClass = Mocks.fixture_setup Mocks.class_bodies Mocks.MockClass /\
    Mocks.class_attrs (Mocks.fixture_setup s2)
      (Mocks.Made "TestAPICallReq" Mocks.MockReqUnmarshaller)
    = Mocks.class_attrs s2 (Mocks.Made "TestAPICallReq" Mocks.MockReqUnmarshaller).
Proof.
  apply (mock_setUp_on_subclass (Mocks.fixture_setup Mocks.class_bodies)
           (Mocks.Made "TestAPICallReq" Mocks.MockReqUnmarshaller)
           (Some "unmarshal") Detection.mock_Request).
  discriminate.
Defined.

Lemma mock_validate_log_witness :
  exists s' : Mocks.store unit,
    Mocks.validate_each (Mocks.Base Mocks.MockReqValidator)
      [Detection.mock_Request; Detection.mock_WebhookRequest]
      (Mocks.fixture_setup Mocks.class_bodies) = Some s' /\
    Mocks.class_attrs s' (Mocks.Base Mocks.MockReqValidator)
    = Some (Mocks.mkAttrs []
              ([] ++ map (fun req => [req])
                       [Detection.mock_Request; Detection.mock_WebhookRequest])
              None) /\
    (forall c', c' <> Mocks.MockClass ->
                s' c' = Mocks.fixture_setup Mocks.class_bodies c').
Proof.
  apply (mock_validate_log (Mocks.fixture_setup Mocks.class_bodies)
           (Mocks.Base Mocks.MockReqValidator) Mocks.MockClass
           (Mocks.mkAttrs [] [] None)
           [Detection.mock_Request; Detection.mock_WebhookRequest]);
    vm_compute; reflexivity.
Defined.

(** ** Further properties of the detection, as the tests state them *)

Section DetectionTests.

Import Detection.

Context {R E : Type}.
Variable run : orchestrator -> py_object -> option py_object -> E + R.

(** X13. The specification argument is checked after the messages and
    before any orchestrator is called: with messages of the types a
    shortcut asks for, an argument that is no specification fails with
    [TypeError] and a specification whose version is not detected fails
    with [SpecError], whatever the shortcut, and nothing is called
    ([test_spec_type_invalid], [test_spec_not_detected]). *)
Theorem spec_argument_checked
    (m : mode) (request response : py_object) (calls : list call_record) :
  (forall (s : request_shortcut) (k : message_kind),
      request_kind s request = Some k ->
      shortcut_request run m s request NotASpec calls = (Failed TypeError, calls) /\
      shortcut_request run m s request (SpecObject None) calls
      = (Failed SpecError, calls))
  /\ (forall (s : response_shortcut) (k : message_kind),
        response_kind s request = Some k ->
        is_Response response = true ->
        shortcut_response run m s request response NotASpec calls
        = (Failed TypeError, calls) /\
        shortcut_response run m s request response (SpecObject None) calls
        = (Failed SpecError, calls)).
Proof.
  split.
  - intros s k Hk. unfold shortcut_request. rewrite Hk. split; reflexivity.
  - intros s k Hk Hr. unfold shortcut_response. rewrite Hk, Hr. split; reflexivity.
Qed.

(** X14. A specification declaring version 3.0 has no orchestrator for
    the response to a webhook request either: the webhook and the generic
    response shortcuts, given a webhook request and a response, fail with
    [SpecError] and call nothing
    ([test_spec_oas30_validator_not_found],
    [test_webhook_response_validator_not_found]). *)
Theorem webhook_response_not_detected_on_oas30
    (m : mode) (request response : py_object) (calls : list call_record) :
  is_WebhookRequest request = true ->
  is_Response response = true ->
  shortcut_response run m webhook_response request response
    (SpecObject (Some OAS30)) calls = (Failed SpecError, calls)
  /\ shortcut_response run m any_response request response
       (SpecObject (Some OAS30)) calls = (Failed SpecError, calls).
Proof.
  intros Hw Hr. unfold shortcut_response, response_kind. rewrite Hw, Hr.
  split; reflexivity.
Qed.



End DetectionTests.

Lemma spec_argument_checked_witness :
  Detection.shortcut_request Detection.run_accepting Detection.Unmarshal
    Detection.apicall_request Detection.mock_Request Detection.NotASpec []
  = (Detection.Failed Detection.TypeError, [])
  /\ Detection.shortcut_request Detection.run_accepting Detection.Unmarshal
       Detection.apicall_request Detection.mock_Request
       (Detection.SpecObject None) []
     = (Detection.Failed Detection.SpecError, []).
Proof.
  apply (proj1 (spec_argument_checked Detection.run_accepting Detection.Unmarshal
                  Detection.mock_Request Detection.mock_Response [])
           Detection.apicall_request Detection.APICallRequest).
  reflexivity.
Defined.

Lemma webhook_response_not_detected_on_oas30_witness :
  Detection.shortcut_response Detection.run_accepting Detection.Validate
    Detection.webhook_response Detection.mock_WebhookRequest
    Detection.mock_Response (Detection.SpecObject (Some Detection.OAS30)) []
  = (Detection.Failed Detection.SpecError, [])
  /\ Detection.shortcut_response Detection.run_accepting Detection.Validate
       Detection.any_response Detection.mock_WebhookRequest
       Detection.mock_Response (Detection.SpecObject (Some Detection.OAS30)) []
     = (Detection.Failed Detection.SpecError, []).
Proof.
  apply (webhook_response_not_detected_on_oas30 Detection.run_accepting
           Detection.Validate Detection.mock_WebhookRequest
           Detection.mock_Response []);
    reflexivity.
Defined.

